(** * A shallow embedding of tempoiq-python's query builder and response
    classification.

    The embedded code is [tempoiq/protocol/query/builder.py].  The modules it
    imports ([selection], [functions], [tempoiq.response]) are not part of
    the sources at hand; the parts needed here are modelled from the spec and
    marked as such. *)

From Stdlib Require Import String List ZArith Ascii Bool Lia.
Import ListNotations.
Open Scope string_scope.
Set Warnings "-register-all".

(** ** Python values *)

(** The values that flow through the builder as arguments: [None], booleans,
    integers, strings, datetimes (an opaque timestamp), lists and the [Rule]
    domain object (an opaque handle). *)
Inductive pyval : Type :=
| PyNone
| PyBool (b : bool)
| PyInt (z : Z)
| PyStr (s : string)
| PyDateTime (t : Z)
| PyList (l : list pyval)
| PyRule (h : Z).

(** Python classes a value can belong to. *)
Inductive pyclass : Type :=
| Cls_NoneType | Cls_bool | Cls_int | Cls_str | Cls_datetime | Cls_list
| Cls_Rule.

Definition pyclass_eqb (a b : pyclass) : bool :=
  match a, b with
  | Cls_NoneType, Cls_NoneType | Cls_bool, Cls_bool | Cls_int, Cls_int
  | Cls_str, Cls_str | Cls_datetime, Cls_datetime | Cls_list, Cls_list
  | Cls_Rule, Cls_Rule => true
  | _, _ => false
  end.

Definition type_of (v : pyval) : pyclass :=
  match v with
  | PyNone => Cls_NoneType
  | PyBool _ => Cls_bool
  | PyInt _ => Cls_int
  | PyStr _ => Cls_str
  | PyDateTime _ => Cls_datetime
  | PyList _ => Cls_list
  | PyRule _ => Cls_Rule
  end.

(** [isinstance(v, C)]: none of these classes derives from another one
    ([bool] and [int] aside, which the builder never asks about). *)
Definition isinstance (v : pyval) (c : pyclass) : bool :=
  pyclass_eqb (type_of v) c.

(** [v is None] *)
Definition is_None (v : pyval) : bool :=
  match v with PyNone => true | _ => false end.

(** Python truthiness, as used by [if start or end]. *)
Definition truthy (v : pyval) : bool :=
  match v with
  | PyNone => false
  | PyBool b => b
  | PyInt z => negb (Z.eqb z 0)
  | PyStr s => negb (String.eqb s "")
  | PyDateTime _ => true
  | PyList l => match l with [] => false | _ => true end
  | PyRule _ => true
  end.

(** ** Exceptions *)

Inductive exn : Type :=
| ValueError (msg : string)
| TypeError (msg : string)
| KeyError (key : string)
| IndexError
| AttributeError (attr : string).

(** A dictionary with string keys, in insertion order ([kwargs], the
    argument dicts of [APIOperation]). *)
Definition dict := list (string * pyval).

Fixpoint dict_get (d : dict) (k : string) : option pyval :=
  match d with
  | [] => None
  | (k', v) :: d' => if String.eqb k k' then Some v else dict_get d' k
  end.

(** ** Selections

    Modelled from the spec (the module [selection] is not among the
    sources): a selection expression is a scalar selector, an AND or OR
    combination ([AndClause], [OrClause], both subclasses of [Compound],
    carrying a list [selectors]) or a dictionary-based compound selector
    ([DictSelectable]).  A [Selection()] holds [None] until a selector is
    added. *)
Inductive selector : Type :=
| ScalarSelector (selection_type : string) (key : string) (value : pyval)
| AndClause (selectors : list selector)
| OrClause (selectors : list selector)
| DictSelectable (selection_type : string) (attrs : dict).

(** [Selection().selection]: [None] or the root expression. *)
Definition selection := option selector.

(** [issubclass(sel.__class__, (Compound, DictSelectable))] *)
Definition is_compound_or_dict (s : selection) : bool :=
  match s with
  | Some (AndClause _) | Some (OrClause _) | Some (DictSelectable _ _) => true
  | _ => false
  end.

(** [hasattr(sel, 'selectors')], returning the attribute when present. *)
Definition selectors_attr (s : selection) : option (list selector) :=
  match s with
  | Some (AndClause l) | Some (OrClause l) => Some l
  | _ => None
  end.

(** [sel.value]: only scalar selectors carry a value. *)
Definition value_attr (s : selection) : option pyval :=
  match s with
  | Some (ScalarSelector _ _ v) => Some v
  | _ => None
  end.

(** ** Pipeline functions and operations

    Modelled from the spec (the module [functions] is not among the
    sources): each pipeline function object keeps its constructor arguments
    in a mutable list [args], in the order of the spec's signatures
    Aggregation(function), Rollup(function, period, start?),
    MultiRollup(functions, period, start?), Find(function, period, start?),
    Interpolation(function, period, start?, end?), ConvertTZ(timezone);
    an omitted optional argument is [None]. *)
Inductive fclass : Type :=
| CAggregation | CRollup | CMultiRollup | CFind | CInterpolation | CConvertTZ.

Record pfunc : Type := mk_pfunc { fclass_of : fclass; args : list pyval }.

Definition Aggregation (function : pyval) : pfunc :=
  mk_pfunc CAggregation [function].
Definition Rollup (function period start : pyval) : pfunc :=
  mk_pfunc CRollup [function; period; start].
Definition MultiRollup (functions period start : pyval) : pfunc :=
  mk_pfunc CMultiRollup [functions; period; start].
Definition Find (function period start : pyval) : pfunc :=
  mk_pfunc CFind [function; period; start].
Definition Interpolation (function period start end_ : pyval) : pfunc :=
  mk_pfunc CInterpolation [function; period; start; end_].
Definition ConvertTZ (tz : pyval) : pfunc := mk_pfunc CConvertTZ [tz].

(** [APIOperation(name, args)] *)
Record APIOperation : Type := mk_op { op_name : string; op_args : dict }.

(** Python's negative indexing [l[-i]] (for [i >= 1]) and the assignment
    [l[-i] = v]; both raise [IndexError] out of range. *)
Definition get_neg (l : list pyval) (i : nat) : option pyval :=
  if andb (1 <=? i)%nat (i <=? length l)%nat
  then nth_error l (length l - i) else None.

Fixpoint set_nth (l : list pyval) (n : nat) (v : pyval) : list pyval :=
  match l, n with
  | [], _ => []
  | _ :: l', O => v :: l'
  | x :: l', S n' => x :: set_nth l' n' v
  end.

Definition set_neg (l : list pyval) (i : nat) (v : pyval)
  : option (list pyval) :=
  if andb (1 <=? i)%nat (i <=? length l)%nat
  then Some (set_nth l (length l - i) v) else None.

(** ** The builder state *)

Record QueryBuilder : Type := mk_qb {
  object_type : string;
  sel_devices : selection;   (* self.selection['devices'].selection *)
  sel_sensors : selection;   (* self.selection['sensors'].selection *)
  sel_rules : selection;     (* self.selection['rules'].selection *)
  pipeline : list pfunc;
  operation : option APIOperation
}.

(** [object_type.__name__.lower()]: ASCII lower-casing. *)
Definition lower_ascii (c : ascii) : ascii :=
  let n := nat_of_ascii c in
  if andb (65 <=? n)%nat (n <=? 90)%nat then ascii_of_nat (n + 32) else c.

Fixpoint lower (s : string) : string :=
  match s with
  | EmptyString => EmptyString
  | String c s' => String (lower_ascii c) (lower s')
  end.

(** [QueryBuilder.__init__(client, object_type)], the class given by its
    [__name__]. *)
Definition init (class_name : string) : QueryBuilder :=
  {| object_type := lower class_name ++ "s";
     sel_devices := None; sel_sensors := None; sel_rules := None;
     pipeline := []; operation := None |}.

(** Calls made on the collaborators: the transport client
    ([self.client]) and its [monitoring_client].  A call taking the builder
    records the builder as it is when the call is made. *)
Inductive call : Type :=
| ClientRead (q : QueryBuilder)
| ClientSearchDevices (q : QueryBuilder)
| ClientSingle (q : QueryBuilder)
| ClientDeleteFromSensors (device_key sensor_key start end_ : pyval)
| ClientDeleteDevice (q : QueryBuilder)
| Monitoring (method : string) (key : pyval).

(** Everything a builder method can change: the builder itself, the calls
    made so far and the warnings issued so far. *)
Record world : Type := mk_world {
  qb : QueryBuilder;
  calls : list call;
  warnings : list string
}.

(** ** A state and exception monad

    A method runs on the world and either returns a value or raises; as in
    Python, the changes made before an exception is raised are kept. *)
Definition M (A : Type) : Type := world -> (A + exn) * world.

Definition ret {A} (a : A) : M A := fun w => (inl a, w).
Definition raise {A} (e : exn) : M A := fun w => (inr e, w).
Definition bind {A B} (m : M A) (f : A -> M B) : M B :=
  fun w => match m w with
           | (inl a, w') => f a w'
           | (inr e, w') => (inr e, w')
           end.

Notation "x <- m ;; k" := (bind m (fun x => k))
  (at level 61, m at next level, right associativity).
Notation "m ;; k" := (bind m (fun _ => k))
  (at level 61, right associativity).

Definition get_self : M QueryBuilder := fun w => (inl (qb w), w).
Definition put_self (b : QueryBuilder) : M unit :=
  fun w => (inl tt, mk_world b (calls w) (warnings w)).
Definition warn (msg : string) : M unit :=
  fun w => (inl tt, mk_world (qb w) (calls w) (app (warnings w) [msg])).

Definition lift_opt {A} (e : exn) (o : option A) : M A :=
  match o with Some a => ret a | None => raise e end.

Definition set_operation (op : APIOperation) : M unit :=
  b <- get_self ;;
  put_self {| object_type := object_type b; sel_devices := sel_devices b;
              sel_sensors := sel_sensors b; sel_rules := sel_rules b;
              pipeline := pipeline b; operation := Some op |}.

Definition set_pipeline (p : list pfunc) : M unit :=
  b <- get_self ;;
  put_self {| object_type := object_type b; sel_devices := sel_devices b;
              sel_sensors := sel_sensors b; sel_rules := sel_rules b;
              pipeline := p; operation := operation b |}.

(** The messages of the module. *)
Definition PIPEMSG := "Pipeline functions passed to monitor call currently have no effect".
Definition DEVICEMSG := "Pipeline functions passed to device reads have no effect".
Definition ROLLUPMSG := "Rollup, find, and multi-rollup must have a start and end passed to them".
Definition DELETEMSG := "Deleting data from sensors requires a start and end time".
Definition DELETEKEYMSG := "Deleting data from a sensor requires a selection specifying one device key and one sensor key only".
Definition DELETEDEVICEMSG := "Start and end are invalid arguments for deleting devices.  Are you sure you didn't mean session.query(Sensor).delete() instead?".
Definition dquote : string := String (ascii_of_nat 34) EmptyString.
Definition LATESTMSG := "The latest() method has been deprecated. Please use single(" ++ dquote ++ "latest" ++ dquote ++ ") instead.".

(** [extract_key_for_monitoring(selection)], on [selection.selection]. *)
Definition extract_key_for_monitoring (s : selection) : pyval + exn :=
  match selectors_attr s with
  | Some sels =>
      if (1 <? length sels)%nat
      then inr (ValueError "monitoring rules may only be read out by one key at a time")
      else match sels with
           | [] => inr IndexError
           | s0 :: _ =>
               match value_attr (Some s0) with
               | Some v => inl v
               | None => inr (AttributeError "value")
               end
           end
  | None =>
      match value_attr s with
      | Some v => inl v
      | None => inr (AttributeError "value")
      end
  end.

Definition lift_res {A} (r : A + exn) : M A :=
  match r with inl a => ret a | inr e => raise e end.

Section Builder.

(** What the collaborators answer to each call. *)
Variable respond : call -> pyval.

(** Make a call on a collaborator and return its answer. *)
Definition client_call (c : call) : M pyval :=
  fun w => (inl (respond c), mk_world (qb w) (app (calls w) [c]) (warnings w)).

(** [_handle_monitor_read], with the method name it takes from
    [kwargs['__method$$']]. *)
Definition _handle_monitor_read (method_name : string) : M pyval :=
  b <- get_self ;;
  key <- lift_res (extract_key_for_monitoring (sel_rules b)) ;;
  client_call (Monitoring method_name key).

(** One iteration of the loop of [_normalize_pipeline_functions]: the
    function object after the in-place updates of its [args], or the
    exception the iteration raises. *)
Definition normalize_function (start end_ : pyval) (f : pfunc) : pfunc + exn :=
  match fclass_of f with
  | CRollup | CMultiRollup | CFind =>
      if orb (is_None start) (is_None end_) then inr (ValueError ROLLUPMSG)
      else match get_neg (args f) 1 with
           | None => inr IndexError
           | Some last =>
               if is_None last then
                 match set_neg (args f) 1 start with
                 | Some a => inl (mk_pfunc (fclass_of f) a)
                 | None => inr IndexError
                 end
               else inl f
           end
  | CInterpolation =>
      match get_neg (args f) 2 with
      | None => inr IndexError
      | Some a2 =>
          let a := if is_None a2
                   then match set_neg (args f) 2 start with
                        | Some a => a | None => args f end
                   else args f in
          match get_neg a 1 with
          | None => inr IndexError
          | Some a1 =>
              if is_None a1 then
                match set_neg a 1 end_ with
                | Some a' => inl (mk_pfunc CInterpolation a')
                | None => inr IndexError
                end
              else inl (mk_pfunc CInterpolation a)
          end
      end
  | _ => inl f
  end.

(** The loop over [self.pipeline]: the pipeline after the updates, and the
    exception that stopped the loop, if any; the functions before the one
    that raised keep their updates. *)
Fixpoint normalize_list (start end_ : pyval) (l : list pfunc)
  : list pfunc * option exn :=
  match l with
  | [] => ([], None)
  | f :: l' =>
      match normalize_function start end_ f with
      | inr e => (f :: l', Some e)
      | inl f' =>
          let (l'', e) := normalize_list start end_ l' in (f' :: l'', e)
      end
  end.

(** [_normalize_pipeline_functions(start, end)] *)
Definition _normalize_pipeline_functions (start end_ : pyval) : M unit :=
  b <- get_self ;;
  let (p, e) := normalize_list start end_ (pipeline b) in
  set_pipeline p ;;
  match e with None => ret tt | Some e => raise e end.

(** [_validate_datapoint_delete()] *)
Definition _validate_datapoint_delete : M (pyval * pyval) :=
  b <- get_self ;;
  if is_compound_or_dict (sel_devices b) then raise (ValueError DELETEKEYMSG) else
  if is_compound_or_dict (sel_sensors b) then raise (ValueError DELETEKEYMSG) else
  match sel_devices b with None => raise (ValueError DELETEKEYMSG) | Some _ =>
  match sel_sensors b with None => raise (ValueError DELETEKEYMSG) | Some _ =>
  dk <- lift_opt (AttributeError "value") (value_attr (sel_devices b)) ;;
  sk <- lift_opt (AttributeError "value") (value_attr (sel_sensors b)) ;;
  ret (dk, sk)
  end end.

(** [self.pipeline.append(f)]; the pipeline methods then return [self]. *)
Definition append_step (f : pfunc) : M unit :=
  b <- get_self ;; set_pipeline (app (pipeline b) [f]).

Definition aggregate (function : pyval) : M unit :=
  append_step (Aggregation function).
Definition convert_timezone (tz : pyval) : M unit :=
  append_step (ConvertTZ tz).
Definition find (function period start : pyval) : M unit :=
  append_step (Find function period start).
Definition multi_rollup (functions period start : pyval) : M unit :=
  append_step (MultiRollup functions period start).
Definition rollup (function period start : pyval) : M unit :=
  append_step (Rollup function period start).

(** [interpolate(function, period, start=None, end=None)] appends
    [Interpolation(function, period)]: the constructor's own defaults
    ([None]) fill its start and end. *)
Definition interpolate (function period start end_ : pyval) : M unit :=
  append_step (Interpolation function period PyNone PyNone).

(** The monitoring reads: [annotations], [changes], [logs], [usage]. *)
Definition monitoring_read (msg method_name : string) : M pyval :=
  b <- get_self ;;
  if negb (isinstance (PyStr (object_type b)) Cls_Rule)
  then raise (TypeError msg)
  else key <- lift_res (extract_key_for_monitoring (sel_rules b)) ;;
       client_call (Monitoring method_name key).

Definition annotations : M pyval :=
  monitoring_read "Annotations only applies to monitoring rules" "get_annotations".
Definition changes : M pyval :=
  monitoring_read "Changes only applies to monitoring rules" "get_changelog".
Definition logs : M pyval :=
  monitoring_read "Logs only applies to monitoring rules" "get_logs".
Definition usage : M pyval :=
  monitoring_read "Usage only applies to monitoring rules" "get_usage".

(** [kwargs.get(k)] *)
Definition kwargs_get (kwargs : dict) (k : string) : pyval :=
  match dict_get kwargs k with Some v => v | None => PyNone end.

Definition find_all : APIOperation := mk_op "find" [("quantifier", PyStr "all")].

(** [delete(kwargs)]; an object type other than the three falls
    through every branch and returns [None]. *)
Definition delete (kwargs : dict) : M pyval :=
  b <- get_self ;;
  if String.eqb (object_type b) "devices" then
    let start := kwargs_get kwargs "start" in
    let end_ := kwargs_get kwargs "end" in
    if orb (truthy start) (truthy end_) then raise (ValueError DELETEDEVICEMSG) else
    set_operation find_all ;;
    b' <- get_self ;;
    client_call (ClientDeleteDevice b')
  else if String.eqb (object_type b) "sensors" then
    let start := kwargs_get kwargs "start" in
    let end_ := kwargs_get kwargs "end" in
    if orb (is_None start) (is_None end_) then raise (ValueError DELETEMSG) else
    keys <- _validate_datapoint_delete ;;
    let (device_key, sensor_key) := keys in
    set_operation (mk_op "delete" [("start", start); ("stop", end_);
                                   ("device_key", device_key);
                                   ("sensor_key", sensor_key)]) ;;
    client_call (ClientDeleteFromSensors device_key sensor_key start end_)
  else if String.eqb (object_type b) "rules" then
    key <- lift_res (extract_key_for_monitoring (sel_rules b)) ;;
    client_call (Monitoring "delete_rule" key)
  else ret PyNone.

(** [read(kwargs)], the keyword arguments as a dict *)
Definition read (kwargs : dict) : M pyval :=
  b <- get_self ;;
  if String.eqb (object_type b) "sensors" then
    start <- lift_opt (KeyError "start") (dict_get kwargs "start") ;;
    end_ <- lift_opt (KeyError "end") (dict_get kwargs "end") ;;
    set_operation (mk_op "read" [("start", start); ("stop", end_)]) ;;
    _normalize_pipeline_functions start end_ ;;
    b' <- get_self ;;
    client_call (ClientRead b')
  else if String.eqb (object_type b) "devices" then
    match pipeline b with
    | [] => ret tt
    | _ :: _ => set_pipeline [] ;; warn DEVICEMSG
    end ;;
    set_operation find_all ;;
    b' <- get_self ;;
    client_call (ClientSearchDevices b')
  else if String.eqb (object_type b) "rules" then
    _handle_monitor_read "get_rule"
  else raise (TypeError "Only sensors, devices, and rules can be selected").

(** [single(function, timestamp=None, include_selection=False)] *)
Definition single (function timestamp include_selection : pyval) : M pyval :=
  b <- get_self ;;
  if String.eqb (object_type b) "sensors" then
    let args := app [("include_selection", include_selection); ("function", function)]
                    (if is_None timestamp then [] else [("timestamp", timestamp)]) in
    set_operation (mk_op "single" args) ;;
    b' <- get_self ;;
    client_call (ClientSingle b')
  else raise (TypeError "Single value only applies to sensors").

(** [latest(include_selection=False)]: the result of [single] is not
    returned, so the method returns [None]. *)
Definition latest (include_selection : pyval) : M pyval :=
  warn LATESTMSG ;;
  _ <- single (PyStr "latest") PyNone include_selection ;;
  ret PyNone.

End Builder.

(** Running a method on a builder, with no call or warning made yet. *)
Definition run {A} (m : M A) (b : QueryBuilder) : (A + exn) * world :=
  m (mk_world b [] []).

(** A rule object handed to [monitor]; the method sets its [selection]
    attribute to the builder's selection (the three categories). *)
Record rule_obj : Type := mk_rule_obj {
  rule_handle : pyval;
  rule_selection : option (selection * selection * selection)
}.

(** [monitor(rule)]: the rule object after [rule.selection = self.selection]
    is returned beside the answer of [self.client.monitor(rule)], given by
    [client_monitor]. *)
Definition monitor (client_monitor : rule_obj -> pyval) (rule : rule_obj)
  : M (rule_obj * pyval) :=
  b <- get_self ;;
  match pipeline b with
  | [] => ret tt
  | _ :: _ => warn PIPEMSG
  end ;;
  let rule' := mk_rule_obj (rule_handle rule)
                 (Some (sel_devices b, sel_sensors b, sel_rules b)) in
  ret (rule', client_monitor rule').

(** ** Response classification

    Modelled from the spec (the module [tempoiq.response] is not among the
    sources; its tests are): a [Response] wraps the transport result,
    keeps its status code and reason, and classifies it as success (0),
    failure (1) or partial (2), the partial multi-status code 207 taking
    precedence over the success range. *)
Module Response.

Definition SUCCESS : Z := 0.
Definition FAILURE : Z := 1.
Definition PARTIAL : Z := 2.

(** The transport's raw result. *)
Record raw_response : Type := mk_raw {
  raw_status_code : Z;
  raw_reason : string;
  raw_text : string
}.

Record Response : Type := mk_response {
  status : Z;
  reason : string;
  successful : Z;
  error : option string
}.

(** [Response(resp, session)] *)
Definition make (resp : raw_response) : Response :=
  let s := raw_status_code resp in
  if Z.eqb s 207 then mk_response s (raw_reason resp) PARTIAL (Some (raw_text resp))
  else if Z.leb 300 s then mk_response s (raw_reason resp) FAILURE (Some (raw_text resp))
  else mk_response s (raw_reason resp) SUCCESS None.

(** The [status_code] alias. *)
Definition status_code (r : Response) : Z := status r.

(** One decoded entry of a write response body. *)
Record entry : Type := mk_entry {
  device_state : string;
  message : option string;
  success : bool
}.

(** The body decoded by [json.loads], in iteration order. *)
Definition body := list (string * entry).

(** The outcome of a write: one pass over the entries recording whether a
    success and whether a failure was seen. *)
Fixpoint scan (data : body) (seen_success seen_failure : bool) : bool * bool :=
  match data with
  | [] => (seen_success, seen_failure)
  | (_, e) :: data' =>
      if success e then scan data' true seen_failure
      else scan data' seen_success true
  end.

Definition write_status (data : body) : Z :=
  let (s, f) := scan data false false in
  if andb s (negb f) then SUCCESS
  else if andb f (negb s) then FAILURE
  else PARTIAL.

(** [WriteResponse(resp, session)], with [data = json.loads(resp.text)]:
    a [Response] whose outcome is recomputed from the body. *)
Definition make_write (resp : raw_response) (data : body) : Response :=
  let r := make resp in
  mk_response (status r) (reason r) (write_status data) (error r).

(** The views, as the generators walk the body. *)
Fixpoint failures (data : body) : list (string * option string) :=
  match data with
  | [] => []
  | (k, e) :: data' =>
      if success e then failures data' else (k, message e) :: failures data'
  end.

Fixpoint keys_in_state (st : string) (data : body) : list string :=
  match data with
  | [] => []
  | (k, e) :: data' =>
      if andb (success e) (String.eqb (device_state e) st)
      then k :: keys_in_state st data'
      else keys_in_state st data'
  end.

Definition created (data : body) : list string := keys_in_state "created" data.
Definition existing (data : body) : list string := keys_in_state "existing" data.
Definition modified (data : body) : list string := keys_in_state "modified" data.

End Response.

(** * Properties *)

(** ** Well-formed pipelines

    The pipeline methods create each function object with its constructor's
    full argument list; the properties below quantify over builders whose
    pipeline functions have that shape. *)
Definition arity (c : fclass) : nat :=
  match c with
  | CAggregation | CConvertTZ => 1
  | CRollup | CMultiRollup | CFind => 3
  | CInterpolation => 4
  end.

Definition wf_function (f : pfunc) : Prop := length (args f) = arity (fclass_of f).

Definition rollup_like (f : pfunc) : bool :=
  match fclass_of f with CRollup | CMultiRollup | CFind => true | _ => false end.

(** What the normalisation promises for one rollup-like function: its
    trailing start, when unset, becomes the read's start; otherwise the
    function is untouched. *)
Definition start_filled (S : pyval) (f f' : pfunc) : Prop :=
  rollup_like f = true ->
  (get_neg (args f) 1 = Some PyNone ->
     f' = mk_pfunc (fclass_of f) (app (removelast (args f)) [S])) /\
  (get_neg (args f) 1 <> Some PyNone -> f' = f).

Ltac destruct_wf f Hwf :=
  let c := fresh "c" in let a := fresh "a" in
  destruct f as [c a]; unfold wf_function in Hwf; simpl in Hwf;
  destruct c; simpl in Hwf;
  destruct a as [|? [|? [|? [|? [|? ?]]]]]; simpl in Hwf; try discriminate.

Lemma normalize_function_not_rollup (S E : pyval) (f : pfunc) :
  wf_function f -> rollup_like f = false ->
  exists f', normalize_function S E f = inl f'.
Proof.
  intros Hwf Hr. destruct_wf f Hwf; try discriminate;
    unfold normalize_function, get_neg, set_neg; simpl;
    repeat (match goal with
            | |- context [if is_None ?v then _ else _] => destruct (is_None v)
            end; simpl); eauto.
Qed.

Lemma normalize_function_rollup_fails (S E : pyval) (f : pfunc) :
  rollup_like f = true -> orb (is_None S) (is_None E) = true ->
  normalize_function S E f = inr (ValueError ROLLUPMSG).
Proof.
  intros Hr Hn. destruct f as [c a]; unfold rollup_like in Hr; simpl in Hr.
  unfold normalize_function; simpl; rewrite Hn; destruct c; try discriminate;
    reflexivity.
Qed.

Lemma normalize_function_rollup_ok (S E : pyval) (f : pfunc) :
  wf_function f -> rollup_like f = true ->
  is_None S = false -> is_None E = false ->
  exists f', normalize_function S E f = inl f' /\ start_filled S f f'.
Proof.
  intros Hwf Hr HS HE. destruct_wf f Hwf; try discriminate;
    unfold normalize_function, get_neg, set_neg; simpl; rewrite HS, HE; simpl;
    match goal with
    | |- context [is_None ?v] => destruct v
    end; simpl; eexists; (split; [reflexivity|]);
    unfold start_filled, get_neg; simpl; intros _; split; intros H;
    solve [ reflexivity | discriminate | congruence ].
Qed.

Lemma normalize_list_fails (S E : pyval) (l : list pfunc) :
  Forall wf_function l -> existsb rollup_like l = true ->
  orb (is_None S) (is_None E) = true ->
  snd (normalize_list S E l) = Some (ValueError ROLLUPMSG).
Proof.
  intros Hwf. induction Hwf as [|f l Hf Hl IH]; simpl; [discriminate|].
  intros Hex Hn. destruct (rollup_like f) eqn:Hr.
  - rewrite (normalize_function_rollup_fails S E f Hr Hn). reflexivity.
  - destruct (normalize_function_not_rollup S E f Hf Hr) as [f' ->].
    simpl in Hex. specialize (IH Hex Hn).
    destruct (normalize_list S E l) as [l'' e]. simpl in *. exact IH.
Qed.

Lemma normalize_list_ok (S E : pyval) (l : list pfunc) :
  Forall wf_function l ->
  (existsb rollup_like l = true -> is_None S = false /\ is_None E = false) ->
  snd (normalize_list S E l) = None /\
  Forall2 (start_filled S) l (fst (normalize_list S E l)).
Proof.
  intros Hwf. induction Hwf as [|f l Hf Hl IH]; simpl; intros Hex.
  - split; [reflexivity | constructor].
  - assert (Hex' : existsb rollup_like l = true ->
                   is_None S = false /\ is_None E = false).
    { intros H. apply Hex. rewrite H. apply orb_true_r. }
    destruct (IH Hex') as [IHe IHf].
    destruct (rollup_like f) eqn:Hr.
    + destruct (Hex eq_refl) as [HS HE].
      destruct (normalize_function_rollup_ok S E f Hf Hr HS HE) as [f' [-> Hff']].
      destruct (normalize_list S E l) as [l'' e]; simpl in *.
      split; [exact IHe | constructor; assumption].
    + destruct (normalize_function_not_rollup S E f Hf Hr) as [f' ->].
      destruct (normalize_list S E l) as [l'' e]; simpl in *.
      split; [exact IHe | constructor; [|assumption]].
      unfold start_filled. rewrite Hr. discriminate.
Qed.

(** Unfolding the monad down to the world it threads. *)
Ltac unfold_monad :=
  unfold run, bind, ret, raise, get_self, put_self, warn, lift_opt, lift_res,
    set_operation, set_pipeline, client_call in *.

(** C1: on a sensors builder, [read(start=S, end=E)] fails with a
    [ValueError] when the pipeline has a Rollup, MultiRollup or Find step and
    [S] or [E] is [None]; otherwise it succeeds, and every such step whose
    trailing start was [None] now has [S] there, the others being unchanged. *)
Theorem read_normalizes_rollup_starts (respond : call -> pyval)
  (b : QueryBuilder) (S E : pyval)
  (Hsensors : object_type b = "sensors")
  (Hwf : Forall wf_function (pipeline b)) :
  let r := run (read respond [("start", S); ("end", E)]) b in
  (existsb rollup_like (pipeline b) = true ->
   orb (is_None S) (is_None E) = true ->
   fst r = inr (ValueError ROLLUPMSG)) /\
  ((existsb rollup_like (pipeline b) = true ->
    is_None S = false /\ is_None E = false) ->
   (exists v, fst r = inl v) /\
   Forall2 (start_filled S) (pipeline b) (pipeline (qb (snd r)))).
Proof.
  intros r; subst r. unfold read, _normalize_pipeline_functions. unfold_monad.
  simpl. rewrite Hsensors. simpl.
  destruct (normalize_list S E (pipeline b)) as [p e] eqn:Hn.
  split.
  - intros Hex HN. pose proof (normalize_list_fails S E _ Hwf Hex HN) as He.
    rewrite Hn in He. simpl in He. subst e. reflexivity.
  - intros Hex. destruct (normalize_list_ok S E _ Hwf Hex) as [He Hf].
    rewrite Hn in He, Hf. simpl in He, Hf. subst e. simpl.
    split; [eexists; reflexivity | exact Hf].
Qed.

(** A sensors read with a rollup, both bounds given. *)
Definition rollup_builder : QueryBuilder :=
  {| object_type := "sensors"; sel_devices := None; sel_sensors := None;
     sel_rules := None;
     pipeline := [Rollup (PyStr "sum") (PyStr "1min") PyNone;
                  Find (PyStr "max") (PyStr "1h") (PyDateTime 3)];
     operation := None |}.

Lemma read_normalizes_rollup_starts_witness :
  object_type rollup_builder = "sensors" /\
  Forall wf_function (pipeline rollup_builder) /\
  Forall2 (start_filled (PyDateTime 1)) (pipeline rollup_builder)
    (pipeline (qb (snd (run (read (fun _ => PyNone)
       [("start", PyDateTime 1); ("end", PyDateTime 9)]) rollup_builder)))).
Proof.
  assert (Hs : object_type rollup_builder = "sensors") by reflexivity.
  assert (Hw : Forall wf_function (pipeline rollup_builder))
    by (repeat constructor).
  split; [exact Hs | split; [exact Hw |]].
  apply (proj2 (read_normalizes_rollup_starts (fun _ => PyNone) rollup_builder
                  (PyDateTime 1) (PyDateTime 9) Hs Hw)).
  intros _. split; reflexivity.
Defined.

(** C2: a sensors read that fails in the normalisation leaves the builder
    changed: [operation] is already the read's, and an Interpolation step
    before the failing Rollup already has the read's end.  No call reaches
    the transport. *)
Theorem read_failure_leaves_operation_set (respond : call -> pyval) :
  let b := {| object_type := "sensors"; sel_devices := None; sel_sensors := None;
              sel_rules := None;
              pipeline := [Interpolation (PyStr "zoh") (PyStr "1min") PyNone PyNone;
                           Rollup (PyStr "sum") (PyStr "1min") PyNone];
              operation := None |} in
  let r := run (read respond [("start", PyNone); ("end", PyDateTime 9)]) b in
  fst r = inr (ValueError ROLLUPMSG) /\
  calls (snd r) = [] /\
  operation (qb (snd r)) =
    Some (mk_op "read" [("start", PyNone); ("stop", PyDateTime 9)]) /\
  pipeline (qb (snd r)) =
    [Interpolation (PyStr "zoh") (PyStr "1min") PyNone (PyDateTime 9);
     Rollup (PyStr "sum") (PyStr "1min") PyNone].
Proof. repeat split. Qed.

(** C3: [annotations], [changes], [logs] and [usage] raise [TypeError] on a
    builder made for [Rule] too: its [object_type] is the string ["rules"],
    never an instance of [Rule]. *)
Theorem monitoring_reads_reject_rules (respond : call -> pyval) :
  let b := init "Rule" in
  object_type b = "rules" /\
  fst (run (annotations respond) b)
    = inr (TypeError "Annotations only applies to monitoring rules") /\
  fst (run (changes respond) b)
    = inr (TypeError "Changes only applies to monitoring rules") /\
  fst (run (logs respond) b)
    = inr (TypeError "Logs only applies to monitoring rules") /\
  fst (run (usage respond) b)
    = inr (TypeError "Usage only applies to monitoring rules").
Proof. repeat split. Qed.

(** C4: [interpolate(f, p, start=S, end=E)] appends an Interpolation step
    whose start and end are [None], whatever [S] and [E] are. *)
Theorem interpolate_drops_bounds :
  pipeline (qb (snd (run (interpolate (PyStr "linear") (PyStr "1min")
                            (PyDateTime 1) (PyDateTime 9)) (init "Sensor"))))
  = [mk_pfunc CInterpolation [PyStr "linear"; PyStr "1min"; PyNone; PyNone]].
Proof. reflexivity. Qed.

(** C9: deleting devices with the falsy, non-[None] start [0] is not
    rejected: the operation becomes find(all) and the device deletion is
    called. *)
Theorem delete_devices_accepts_falsy_start (respond : call -> pyval) :
  let b := init "Device" in
  let q := {| object_type := "devices"; sel_devices := None;
              sel_sensors := None; sel_rules := None; pipeline := [];
              operation := Some find_all |} in
  run (delete respond [("start", PyInt 0)]) b
  = (inl (respond (ClientDeleteDevice q)), mk_world q [ClientDeleteDevice q] []).
Proof. reflexivity. Qed.

(** C10: [latest()] makes the same call and state change as
    [single("latest")] but returns [None] instead of the call's result. *)
Theorem latest_returns_none (respond : call -> pyval) :
  let b := init "Sensor" in
  let q := {| object_type := "sensors"; sel_devices := None;
              sel_sensors := None; sel_rules := None; pipeline := [];
              operation := Some (mk_op "single"
                [("include_selection", PyBool false);
                 ("function", PyStr "latest")]) |} in
  run (single respond (PyStr "latest") PyNone (PyBool false)) b
    = (inl (respond (ClientSingle q)), mk_world q [ClientSingle q] []) /\
  run (latest respond (PyBool false)) b
    = (inl PyNone, mk_world q [ClientSingle q] [LATESTMSG]).
Proof. split; reflexivity. Qed.

(** A selection that is one scalar selector, and its value. *)
Definition single_scalar_key (s : selection) : option pyval :=
  match s with Some (ScalarSelector _ _ v) => Some v | _ => None end.

Definition with_operation (b : QueryBuilder) (op : APIOperation) : QueryBuilder :=
  {| object_type := object_type b; sel_devices := sel_devices b;
     sel_sensors := sel_sensors b; sel_rules := sel_rules b;
     pipeline := pipeline b; operation := Some op |}.

(** C5: on a sensors builder, [delete(start=S, end=E)] fails with a
    [ValueError] when [S] or [E] is [None], or when the devices or the
    sensors selection is absent or not a single scalar selector, with no
    call made; otherwise it records the delete operation with both keys and
    calls [delete_from_sensors(device_key, sensor_key, S, E)]. *)
Theorem delete_sensors_requires_keys_and_bounds (respond : call -> pyval)
  (b : QueryBuilder) (S E : pyval)
  (Hsensors : object_type b = "sensors") :
  let r := run (delete respond [("start", S); ("end", E)]) b in
  (orb (is_None S) (is_None E) = true ->
   fst r = inr (ValueError DELETEMSG) /\ calls (snd r) = []) /\
  (is_None S = false -> is_None E = false ->
   single_scalar_key (sel_devices b) = None \/
   single_scalar_key (sel_sensors b) = None ->
   fst r = inr (ValueError DELETEKEYMSG) /\ calls (snd r) = []) /\
  (forall device_key sensor_key,
   is_None S = false -> is_None E = false ->
   single_scalar_key (sel_devices b) = Some device_key ->
   single_scalar_key (sel_sensors b) = Some sensor_key ->
   let b' := with_operation b (mk_op "delete"
               [("start", S); ("stop", E); ("device_key", device_key);
                ("sensor_key", sensor_key)]) in
   let c := ClientDeleteFromSensors device_key sensor_key S E in
   r = (inl (respond c), mk_world b' [c] [])).
Proof.
  intros r; subst r. unfold delete, _validate_datapoint_delete, kwargs_get.
  unfold_monad. simpl. rewrite Hsensors. simpl.
  split; [|split].
  - intros HN. rewrite HN. split; reflexivity.
  - intros HS HE Hkey. rewrite HS, HE. simpl.
    destruct b as [ot sd ss sr p op]; simpl in *.
    destruct Hkey as [Hk | Hk];
      destruct sd as [[] |]; destruct ss as [[] |]; simpl in *;
      try discriminate; split; reflexivity.
  - intros dk sk HS HE Hd Hs. rewrite HS, HE. simpl.
    destruct b as [ot sd ss sr p op]; simpl in *.
    destruct sd as [[] |]; destruct ss as [[] |]; simpl in *;
      try discriminate.
    injection Hd as <-. injection Hs as <-. reflexivity.
Qed.

Lemma delete_sensors_requires_keys_and_bounds_witness :
  let b := {| object_type := "sensors";
              sel_devices := Some (ScalarSelector "devices" "key" (PyStr "dev1"));
              sel_sensors := Some (ScalarSelector "sensors" "key" (PyStr "temp"));
              sel_rules := None; pipeline := []; operation := None |} in
  object_type b = "sensors" /\
  fst (run (delete (fun _ => PyNone)
         [("start", PyDateTime 1); ("end", PyDateTime 9)]) b) = inl PyNone.
Proof.
  intros b.
  assert (Hs : object_type b = "sensors") by reflexivity.
  split; [exact Hs |].
  pose proof (proj2 (proj2 (delete_sensors_requires_keys_and_bounds
     (fun _ => PyNone) b (PyDateTime 1) (PyDateTime 9) Hs))
     (PyStr "dev1") (PyStr "temp") eq_refl eq_refl eq_refl eq_refl) as H.
  simpl in H. rewrite H. reflexivity.
Defined.

(** The number of scalar selectors in a list of selectors. *)
Fixpoint count_scalars (l : list selector) : nat :=
  match l with
  | [] => 0
  | ScalarSelector _ _ _ :: l' => S (count_scalars l')
  | _ :: l' => count_scalars l'
  end.

Lemma count_scalars_le_length (l : list selector) :
  (count_scalars l <= length l)%nat.
Proof. induction l as [|[] l IH]; simpl; lia. Qed.

Definition ONEKEYMSG := "monitoring rules may only be read out by one key at a time".

(** C6: [extract_key_for_monitoring] fails with a [ValueError] when the
    root's list of selectors holds more than one scalar selector, returns
    the value of the only selector of a one-scalar list, and returns the
    value of a root that is itself a scalar selector. *)
Theorem extract_key_for_monitoring_cases :
  (forall l, (1 < count_scalars l)%nat ->
     extract_key_for_monitoring (Some (AndClause l)) = inr (ValueError ONEKEYMSG) /\
     extract_key_for_monitoring (Some (OrClause l)) = inr (ValueError ONEKEYMSG)) /\
  (forall t k v,
     extract_key_for_monitoring (Some (AndClause [ScalarSelector t k v])) = inl v /\
     extract_key_for_monitoring (Some (OrClause [ScalarSelector t k v])) = inl v) /\
  (forall t k v,
     extract_key_for_monitoring (Some (ScalarSelector t k v)) = inl v).
Proof.
  split; [|split; [split|]; reflexivity].
  intros l Hl. pose proof (count_scalars_le_length l) as Hle.
  unfold extract_key_for_monitoring; simpl.
  assert (Hlt : (1 <? length l)%nat = true) by (apply Nat.ltb_lt; lia).
  rewrite Hlt. split; reflexivity.
Qed.

(** ** Responses *)

(** C7, as stated: every status in [200, 300) is a success.  Status 207
    lies in that range and is classified partial. *)
Lemma response_207_not_success :
  ~ (forall resp : Response.raw_response,
       (200 <= Response.raw_status_code resp < 300)%Z ->
       Response.successful (Response.make resp) = Response.SUCCESS /\
       Response.error (Response.make resp) = None).
Proof.
  intros H.
  destruct (H (Response.mk_raw 207 "Forbidden" "foo")) as [Hs _];
    [simpl; lia |].
  discriminate Hs.
Qed.

(** C7 (amended): a [Response] keeps the status code and reason, its
    [status_code] alias is its status, a status in [200, 300) other than
    207 is a success with no error, 207 is partial and a status from 300 up
    is a failure, both with the body text as the error. *)
Theorem response_classification (resp : Response.raw_response) :
  let s := Response.raw_status_code resp in
  let r := Response.make resp in
  Response.status r = s /\
  Response.reason r = Response.raw_reason resp /\
  Response.status_code r = Response.status r /\
  ((200 <= s < 300)%Z -> s <> 207%Z ->
     Response.successful r = Response.SUCCESS /\ Response.error r = None) /\
  ((300 <= s)%Z ->
     Response.successful r = Response.FAILURE /\
     Response.error r = Some (Response.raw_text resp)) /\
  (s = 207%Z ->
     Response.successful r = Response.PARTIAL /\
     Response.error r = Some (Response.raw_text resp)).
Proof.
  destruct resp as [code rs txt]; simpl. unfold Response.make; simpl.
  destruct (Z.eqb_spec code 207) as [H207 | H207];
    destruct (Z.leb_spec 300 code) as [H300 | H300]; simpl;
    repeat split; intros; try lia; try reflexivity.
Qed.

Section WriteResponse.
Import Response.

Definition entry_ok (ke : string * entry) : bool := success (snd ke).
Definition entry_failed (ke : string * entry) : bool := negb (success (snd ke)).

Lemma scan_spec (data : body) (s f : bool) :
  scan data s f = (orb s (existsb entry_ok data), orb f (existsb entry_failed data)).
Proof.
  revert s f. induction data as [|[k e] data IH]; intros s f; simpl.
  - rewrite !orb_false_r. reflexivity.
  - unfold entry_ok, entry_failed at 1; simpl.
    destruct (success e); simpl; rewrite IH;
      f_equal; destruct s, f; reflexivity.
Qed.

Lemma existsb_false_Forall (p : string * entry -> bool) (data : body) :
  existsb p data = false <-> Forall (fun ke => p ke = false) data.
Proof.
  rewrite Forall_forall. split.
  - intros H x Hx. destruct (p x) eqn:Hp; [|reflexivity].
    assert (existsb p data = true) by (apply existsb_exists; eauto).
    congruence.
  - intros H. destruct (existsb p data) eqn:He; [|reflexivity].
    apply existsb_exists in He as [x [Hx Hp]]. rewrite (H x Hx) in Hp.
    discriminate.
Qed.

Lemma nonempty_ok_or_failed (data : body) :
  data <> [] -> orb (existsb entry_ok data) (existsb entry_failed data) = true.
Proof.
  destruct data as [|[k e] data]; [congruence|]. intros _. simpl.
  unfold entry_ok, entry_failed; simpl. destruct (success e); simpl;
    [reflexivity | rewrite orb_true_r; reflexivity].
Qed.

Lemma failures_spec (data : body) (k : string) (m : option string) :
  In (k, m) (failures data) <-> exists ds, In (k, mk_entry ds m false) data.
Proof.
  induction data as [|[k' [ds' m' ok']] data IH]; simpl.
  - split; [tauto | intros [ds []]].
  - destruct ok'; simpl; rewrite IH; split.
    + intros [ds H]; eauto.
    + intros [ds [H | H]]; [discriminate | eauto].
    + intros [H | [ds H]]; [injection H as -> ->; eauto | eauto].
    + intros [ds [H | H]]; [injection H as -> -> -> ; auto | eauto].
Qed.

Lemma keys_in_state_spec (st : string) (data : body) (k : string) :
  In k (keys_in_state st data) <-> exists m, In (k, mk_entry st m true) data.
Proof.
  induction data as [|[k' [ds' m' ok']] data IH]; simpl.
  - split; [tauto | intros [m []]].
  - destruct ok'; simpl; [destruct (String.eqb_spec ds' st) as [-> | Hne]|];
      simpl; rewrite IH; split.
    + intros [-> | [m H]]; eauto.
    + intros [m [H | H]]; [injection H as -> _; auto | eauto].
    + intros [m H]; eauto.
    + intros [m [H | H]]; [injection H as _ Hst _; congruence | eauto].
    + intros [m H]; eauto.
    + intros [m [H | H]]; [discriminate | eauto].
Qed.

End WriteResponse.

(** C8: for a non-empty write body, the outcome does not depend on the HTTP
    status; it is success exactly when every entry succeeded, failure
    exactly when every entry failed, partial otherwise; [failures] yields
    exactly the (key, message) pairs of the failed entries, and [created],
    [existing] and [modified] exactly the keys of the successful entries in
    that device state. *)
Theorem write_response_classification (data : Response.body)
  (Hne : data <> []) :
  (forall resp resp',
     Response.successful (Response.make_write resp data) =
     Response.successful (Response.make_write resp' data)) /\
  (forall resp,
     (Response.successful (Response.make_write resp data) = Response.SUCCESS <->
      Forall (fun ke => Response.success (snd ke) = true) data) /\
     (Response.successful (Response.make_write resp data) = Response.FAILURE <->
      Forall (fun ke => Response.success (snd ke) = false) data) /\
     (Response.successful (Response.make_write resp data) = Response.PARTIAL <->
      (exists ke, In ke data /\ Response.success (snd ke) = true) /\
      (exists ke, In ke data /\ Response.success (snd ke) = false))) /\
  (forall k m, In (k, m) (Response.failures data) <->
     exists ds, In (k, Response.mk_entry ds m false) data) /\
  (forall k, In k (Response.created data) <->
     exists m, In (k, Response.mk_entry "created" m true) data) /\
  (forall k, In k (Response.existing data) <->
     exists m, In (k, Response.mk_entry "existing" m true) data) /\
  (forall k, In k (Response.modified data) <->
     exists m, In (k, Response.mk_entry "modified" m true) data).
Proof.
  split; [reflexivity |].
  split; [| split; [apply failures_spec | split; [|split]; intros k;
                    apply keys_in_state_spec]].
  intros resp. unfold Response.make_write, Response.write_status. simpl.
  rewrite scan_spec. simpl.
  pose proof (nonempty_ok_or_failed data Hne) as Hor.
  assert (Hok : existsb entry_failed data = false <->
                Forall (fun ke => Response.success (snd ke) = true) data).
  { rewrite existsb_false_Forall. split; apply Forall_impl;
      unfold entry_failed; intros ke; destruct (Response.success (snd ke));
      simpl; congruence. }
  assert (Hko : existsb entry_ok data = false <->
                Forall (fun ke => Response.success (snd ke) = false) data).
  { rewrite existsb_false_Forall. reflexivity. }
  assert (Hex_ok : existsb entry_ok data = true <->
                   exists ke, In ke data /\ Response.success (snd ke) = true).
  { rewrite existsb_exists. reflexivity. }
  assert (Hex_f : existsb entry_failed data = true <->
                  exists ke, In ke data /\ Response.success (snd ke) = false).
  { rewrite existsb_exists. unfold entry_failed. split; intros [ke [Hin Hp]];
      exists ke; split; auto; destruct (Response.success (snd ke)); simpl in *;
      congruence. }
  rewrite <- Hok, <- Hko, <- Hex_ok, <- Hex_f.
  destruct (existsb entry_ok data), (existsb entry_failed data);
    simpl in *; try discriminate;
    unfold Response.SUCCESS, Response.FAILURE, Response.PARTIAL;
    repeat split; intros; try discriminate; try reflexivity;
    try (destruct H; discriminate); try tauto.
Qed.

Lemma write_response_classification_witness :
  let data := [("key1", Response.mk_entry "existing" None true);
               ("key2", Response.mk_entry "created" (Some "bad things happened") false)] in
  data <> [] /\
  Response.failures data = [("key2", Some "bad things happened")] /\
  (Response.successful
     (Response.make_write (Response.mk_raw 200 "OK" "") data) = Response.PARTIAL <->
   (exists ke, In ke data /\ Response.success (snd ke) = true) /\
   (exists ke, In ke data /\ Response.success (snd ke) = false)).
Proof.
  intros data.
  assert (Hne : data <> []) by discriminate.
  split; [exact Hne | split; [reflexivity |]].
  exact (proj2 (proj2 (proj1 (proj2 (write_response_classification data Hne))
                   (Response.mk_raw 200 "OK" "")))).
Defined.

(** ** Further properties of the builder *)

Definition with_pipeline_op (b : QueryBuilder) (p : list pfunc)
  (op : APIOperation) : QueryBuilder :=
  {| object_type := object_type b; sel_devices := sel_devices b;
     sel_sensors := sel_sensors b; sel_rules := sel_rules b;
     pipeline := p; operation := Some op |}.

(** Reading devices discards the pipeline, warns exactly when there was
    one, records find(all) and searches devices with the cleared builder;
    it never fails and ignores its keyword arguments. *)
Theorem read_devices_discards_pipeline (respond : call -> pyval)
  (b : QueryBuilder) (kwargs : dict)
  (Hdevices : object_type b = "devices") :
  let q := with_pipeline_op b [] find_all in
  run (read respond kwargs) b =
  (inl (respond (ClientSearchDevices q)),
   mk_world q [ClientSearchDevices q]
     (match pipeline b with [] => [] | _ :: _ => [DEVICEMSG] end)).
Proof.
  unfold read. unfold_monad. simpl. rewrite Hdevices. simpl.
  destruct b as [ot sd ss sr [|f p] op]; reflexivity.
Qed.

Lemma read_devices_discards_pipeline_witness :
  let b := {| object_type := "devices"; sel_devices := None; sel_sensors := None;
              sel_rules := None; pipeline := [Aggregation (PyStr "sum")];
              operation := None |} in
  object_type b = "devices" /\
  warnings (snd (run (read (fun _ => PyNone) []) b)) = [DEVICEMSG].
Proof.
  intros b. assert (H : object_type b = "devices") by reflexivity.
  split; [exact H |].
  rewrite (read_devices_discards_pipeline (fun _ => PyNone) b [] H).
  reflexivity.
Defined.

(** Reading or deleting on a rules builder goes through the key
    extraction: with a key it makes exactly the monitoring call
    [get_rule(key)] or [delete_rule(key)] and leaves the builder as it is;
    when the extraction raises, the same exception comes out, with no call
    and no change. *)
Theorem rules_read_delete_by_key (respond : call -> pyval)
  (b : QueryBuilder) (kwargs : dict)
  (Hrules : object_type b = "rules") :
  (forall key, extract_key_for_monitoring (sel_rules b) = inl key ->
     run (read respond kwargs) b =
       (inl (respond (Monitoring "get_rule" key)),
        mk_world b [Monitoring "get_rule" key] []) /\
     run (delete respond kwargs) b =
       (inl (respond (Monitoring "delete_rule" key)),
        mk_world b [Monitoring "delete_rule" key] [])) /\
  (forall e, extract_key_for_monitoring (sel_rules b) = inr e ->
     run (read respond kwargs) b = (inr e, mk_world b [] []) /\
     run (delete respond kwargs) b = (inr e, mk_world b [] [])).
Proof.
  unfold read, delete, _handle_monitor_read. unfold_monad. simpl.
  rewrite Hrules. simpl.
  split; intros x Hx; rewrite Hx; split; reflexivity.
Qed.

Lemma rules_read_delete_by_key_witness :
  let b := {| object_type := "rules"; sel_devices := None; sel_sensors := None;
              sel_rules := Some (ScalarSelector "rules" "key" (PyStr "r1"));
              pipeline := []; operation := None |} in
  object_type b = "rules" /\
  calls (snd (run (read (fun _ => PyNone) []) b))
    = [Monitoring "get_rule" (PyStr "r1")].
Proof.
  intros b. assert (H : object_type b = "rules") by reflexivity.
  split; [exact H |].
  rewrite (proj1 (proj1 (rules_read_delete_by_key (fun _ => PyNone) b [] H)
                    (PyStr "r1") eq_refl)).
  reflexivity.
Defined.

(** A rules builder with no rules filter (its selection is still [None])
    has no key to extract: reading and deleting raise [AttributeError]
    (not [ValueError]), make no call and leave the builder as it is. *)
Theorem rules_without_filter_attribute_error (respond : call -> pyval)
  (b : QueryBuilder) (kwargs : dict)
  (Hrules : object_type b = "rules") (Hnone : sel_rules b = None) :
  run (read respond kwargs) b = (inr (AttributeError "value"), mk_world b [] []) /\
  run (delete respond kwargs) b = (inr (AttributeError "value"), mk_world b [] []).
Proof.
  destruct (proj2 (rules_read_delete_by_key respond b kwargs Hrules)
              (AttributeError "value")) as [H1 H2];
    [rewrite Hnone; reflexivity |].
  split; assumption.
Qed.

Lemma rules_without_filter_attribute_error_witness :
  object_type (init "Rule") = "rules" /\ sel_rules (init "Rule") = None /\
  fst (run (read (fun _ => PyNone) []) (init "Rule")) = inr (AttributeError "value").
Proof.
  assert (H1 : object_type (init "Rule") = "rules") by reflexivity.
  assert (H2 : sel_rules (init "Rule") = None) by reflexivity.
  split; [exact H1 | split; [exact H2 |]].
  rewrite (proj1 (rules_without_filter_attribute_error (fun _ => PyNone)
                    (init "Rule") [] H1 H2)).
  reflexivity.
Defined.

(** For an object type other than sensors, devices and rules, [read]
    raises [TypeError] while [delete] silently returns [None]; neither makes
    a call or changes the builder. *)
Theorem unknown_object_type_read_delete (respond : call -> pyval)
  (b : QueryBuilder) (kwargs : dict)
  (Hs : object_type b <> "sensors") (Hd : object_type b <> "devices")
  (Hr : object_type b <> "rules") :
  run (read respond kwargs) b =
    (inr (TypeError "Only sensors, devices, and rules can be selected"),
     mk_world b [] []) /\
  run (delete respond kwargs) b = (inl PyNone, mk_world b [] []).
Proof.
  unfold read, delete. unfold_monad. simpl.
  apply String.eqb_neq in Hs, Hd, Hr. rewrite Hs, Hd, Hr.
  split; reflexivity.
Qed.

Lemma unknown_object_type_read_delete_witness :
  let b := init "Widget" in
  object_type b <> "sensors" /\ object_type b <> "devices" /\
  object_type b <> "rules" /\
  fst (run (delete (fun _ => PyStr "x") []) b) = inl PyNone.
Proof.
  intros b.
  assert (H1 : object_type b <> "sensors") by discriminate.
  assert (H2 : object_type b <> "devices") by discriminate.
  assert (H3 : object_type b <> "rules") by discriminate.
  split; [exact H1 | split; [exact H2 | split; [exact H3 |]]].
  rewrite (proj2 (unknown_object_type_read_delete (fun _ => PyStr "x") b []
                    H1 H2 H3)).
  reflexivity.
Defined.

(** [single] on a builder that is not for sensors raises [TypeError]
    without a call or change; [latest] raises the same error but has
    already issued its deprecation warning. *)
Theorem single_latest_require_sensors (respond : call -> pyval)
  (b : QueryBuilder) (function timestamp include_selection : pyval)
  (Hs : object_type b <> "sensors") :
  run (single respond function timestamp include_selection) b =
    (inr (TypeError "Single value only applies to sensors"), mk_world b [] []) /\
  run (latest respond include_selection) b =
    (inr (TypeError "Single value only applies to sensors"),
     mk_world b [] [LATESTMSG]).
Proof.
  unfold latest, single. unfold_monad. simpl.
  apply String.eqb_neq in Hs. rewrite Hs. split; reflexivity.
Qed.

Lemma single_latest_require_sensors_witness :
  object_type (init "Device") <> "sensors" /\
  fst (run (single (fun _ => PyNone) (PyStr "earliest") PyNone (PyBool false))
         (init "Device"))
  = inr (TypeError "Single value only applies to sensors").
Proof.
  assert (H : object_type (init "Device") <> "sensors") by discriminate.
  split; [exact H |].
  rewrite (proj1 (single_latest_require_sensors (fun _ => PyNone) (init "Device")
                    (PyStr "earliest") PyNone (PyBool false) H)).
  reflexivity.
Defined.

(** [single] on sensors makes one [client.single] call with the builder
    whose operation is single, recording [include_selection] and [function]
    and a [timestamp] entry exactly when the timestamp is not [None]; the
    pipeline and selections are untouched. *)
Theorem single_sensors_operation (respond : call -> pyval)
  (b : QueryBuilder) (function timestamp include_selection : pyval)
  (Hs : object_type b = "sensors") :
  exists op,
    run (single respond function timestamp include_selection) b =
      (inl (respond (ClientSingle (with_pipeline_op b (pipeline b) op))),
       mk_world (with_pipeline_op b (pipeline b) op)
         [ClientSingle (with_pipeline_op b (pipeline b) op)] []) /\
    op_name op = "single" /\
    dict_get (op_args op) "include_selection" = Some include_selection /\
    dict_get (op_args op) "function" = Some function /\
    dict_get (op_args op) "timestamp" =
      (if is_None timestamp then None else Some timestamp).
Proof.
  unfold single. unfold_monad. simpl. rewrite Hs. simpl.
  eexists. split; [reflexivity |].
  simpl. repeat split. destruct (is_None timestamp); reflexivity.
Qed.

Lemma single_sensors_operation_witness :
  object_type (init "Sensor") = "sensors" /\
  exists op,
    op_name op = "single" /\
    dict_get (op_args op) "timestamp" = Some (PyDateTime 5).
Proof.
  assert (H : object_type (init "Sensor") = "sensors") by reflexivity.
  split; [exact H |].
  destruct (single_sensors_operation (fun _ => PyNone) (init "Sensor")
              (PyStr "before") (PyDateTime 5) (PyBool true) H)
    as [op [_ [Hn [_ [_ Ht]]]]].
  exists op. split; [exact Hn | exact Ht].
Defined.

(** A sensors read without a [start] keyword raises [KeyError('start')],
    and one with [start] but without [end] raises [KeyError('end')]; in
    both cases before anything is recorded or called. *)
Theorem read_sensors_missing_bounds (respond : call -> pyval)
  (b : QueryBuilder) (kwargs : dict)
  (Hs : object_type b = "sensors") :
  (dict_get kwargs "start" = None ->
   run (read respond kwargs) b = (inr (KeyError "start"), mk_world b [] [])) /\
  (forall start, dict_get kwargs "start" = Some start ->
   dict_get kwargs "end" = None ->
   run (read respond kwargs) b = (inr (KeyError "end"), mk_world b [] [])).
Proof.
  unfold read. unfold_monad. simpl. rewrite Hs. simpl.
  split; [intros H | intros st H1 H2]; rewrite ?H, ?H1, ?H2; reflexivity.
Qed.

Lemma read_sensors_missing_bounds_witness :
  object_type (init "Sensor") = "sensors" /\
  fst (run (read (fun _ => PyNone) [("end", PyDateTime 9)]) (init "Sensor"))
  = inr (KeyError "start").
Proof.
  assert (H : object_type (init "Sensor") = "sensors") by reflexivity.
  split; [exact H |].
  rewrite (proj1 (read_sensors_missing_bounds (fun _ => PyNone) (init "Sensor")
                    [("end", PyDateTime 9)] H) eq_refl).
  reflexivity.
Defined.

(** Deleting devices is refused, with no call and no change, exactly when
    the [start] or the [end] keyword is truthy; otherwise the operation
    becomes find(all), the pipeline is kept and [delete_device] is called
    once with the builder. *)
Theorem delete_devices_truthy_guard (respond : call -> pyval)
  (b : QueryBuilder) (kwargs : dict)
  (Hdevices : object_type b = "devices") :
  (orb (truthy (kwargs_get kwargs "start")) (truthy (kwargs_get kwargs "end")) = true ->
   run (delete respond kwargs) b =
     (inr (ValueError DELETEDEVICEMSG), mk_world b [] [])) /\
  (orb (truthy (kwargs_get kwargs "start")) (truthy (kwargs_get kwargs "end")) = false ->
   let q := with_pipeline_op b (pipeline b) find_all in
   run (delete respond kwargs) b =
     (inl (respond (ClientDeleteDevice q)), mk_world q [ClientDeleteDevice q] [])).
Proof.
  unfold delete. unfold_monad. simpl. rewrite Hdevices. simpl.
  split; intros H; rewrite H; reflexivity.
Qed.

Lemma delete_devices_truthy_guard_witness :
  object_type (init "Device") = "devices" /\
  fst (run (delete (fun _ => PyNone) [("start", PyDateTime 1)]) (init "Device"))
  = inr (ValueError DELETEDEVICEMSG).
Proof.
  assert (H : object_type (init "Device") = "devices") by reflexivity.
  split; [exact H |].
  rewrite (proj1 (delete_devices_truthy_guard (fun _ => PyNone) (init "Device")
                    [("start", PyDateTime 1)] H) eq_refl).
  reflexivity.
Defined.

(** A sensors delete that is refused (a missing bound, or a selection that
    is not one scalar key) leaves the whole builder as it was and makes no
    call: unlike [read], it checks before it records the operation. *)
Theorem delete_sensors_failure_no_change (respond : call -> pyval)
  (b : QueryBuilder) (kwargs : dict) (e : exn)
  (Hsensors : object_type b = "sensors")
  (Hfail : fst (run (delete respond kwargs) b) = inr e) :
  snd (run (delete respond kwargs) b) = mk_world b [] [].
Proof.
  revert Hfail. unfold delete, _validate_datapoint_delete. unfold_monad.
  simpl. rewrite Hsensors. simpl.
  destruct (orb (is_None (kwargs_get kwargs "start"))
                (is_None (kwargs_get kwargs "end"))); [reflexivity |].
  destruct b as [ot sd ss sr p op]; simpl.
  destruct sd as [[] |]; destruct ss as [[] |]; simpl;
    solve [ reflexivity | discriminate ].
Qed.

Lemma delete_sensors_failure_no_change_witness :
  object_type (init "Sensor") = "sensors" /\
  fst (run (delete (fun _ => PyNone) [("start", PyDateTime 1); ("end", PyDateTime 2)])
         (init "Sensor")) = inr (ValueError DELETEKEYMSG) /\
  snd (run (delete (fun _ => PyNone) [("start", PyDateTime 1); ("end", PyDateTime 2)])
         (init "Sensor")) = mk_world (init "Sensor") [] [].
Proof.
  assert (H : object_type (init "Sensor") = "sensors") by reflexivity.
  assert (Hf : fst (run (delete (fun _ => PyNone)
                     [("start", PyDateTime 1); ("end", PyDateTime 2)])
                     (init "Sensor")) = inr (ValueError DELETEKEYMSG))
    by reflexivity.
  split; [exact H | split; [exact Hf |]].
  exact (delete_sensors_failure_no_change (fun _ => PyNone) (init "Sensor") _ _ H Hf).
Defined.

Definition with_pipeline (b : QueryBuilder) (p : list pfunc) : QueryBuilder :=
  {| object_type := object_type b; sel_devices := sel_devices b;
     sel_sensors := sel_sensors b; sel_rules := sel_rules b;
     pipeline := p; operation := operation b |}.

(** The pipeline methods never fail and touch nothing but the pipeline,
    to which each appends its one step at the end; so a chain of them
    leaves the steps in call order. *)
Theorem pipeline_methods_append (b : QueryBuilder) (f p s e tz : pyval) :
  run (aggregate f) b = (inl tt, mk_world (with_pipeline b (app (pipeline b) [Aggregation f])) [] []) /\
  run (rollup f p s) b = (inl tt, mk_world (with_pipeline b (app (pipeline b) [Rollup f p s])) [] []) /\
  run (multi_rollup f p s) b = (inl tt, mk_world (with_pipeline b (app (pipeline b) [MultiRollup f p s])) [] []) /\
  run (find f p s) b = (inl tt, mk_world (with_pipeline b (app (pipeline b) [Find f p s])) [] []) /\
  run (convert_timezone tz) b = (inl tt, mk_world (with_pipeline b (app (pipeline b) [ConvertTZ tz])) [] []) /\
  run (interpolate f p s e) b =
    (inl tt, mk_world (with_pipeline b (app (pipeline b) [Interpolation f p PyNone PyNone])) [] []) /\
  pipeline (qb (snd (run (rollup f p s ;; aggregate tz) b)))
    = app (pipeline b) [Rollup f p s; Aggregation tz].
Proof.
  repeat split. unfold run, bind; simpl. rewrite <- app_assoc. reflexivity.
Qed.

(** [monitor] never fails and leaves the builder as it is: it warns when
    a pipeline was accumulated but, unlike a devices read, keeps it; the
    rule handed to [client.monitor] carries the builder's selection. *)
Theorem monitor_keeps_pipeline (client_monitor : rule_obj -> pyval)
  (b : QueryBuilder) (rule : rule_obj) :
  let rule' := mk_rule_obj (rule_handle rule)
                 (Some (sel_devices b, sel_sensors b, sel_rules b)) in
  run (monitor client_monitor rule) b =
    (inl (rule', client_monitor rule'),
     mk_world b [] (match pipeline b with [] => [] | _ :: _ => [PIPEMSG] end)).
Proof.
  unfold monitor. unfold_monad. simpl. destruct (pipeline b); reflexivity.
Qed.

(** ** The normalisation as a whole *)

Definition fill_none (v d : pyval) : pyval := if is_None v then d else v.

(** What normalising with bounds [S] and [E] does to one well-formed
    function: a Rollup, MultiRollup or Find gets [S] as its missing start,
    an Interpolation gets [S] and [E] as its missing start and end, the
    other functions are kept. *)
Definition normalized (S E : pyval) (f f' : pfunc) : Prop :=
  let a := args f in
  match fclass_of f with
  | CRollup | CMultiRollup | CFind =>
      f' = mk_pfunc (fclass_of f)
             [nth 0 a PyNone; nth 1 a PyNone; fill_none (nth 2 a PyNone) S]
  | CInterpolation =>
      f' = mk_pfunc CInterpolation
             [nth 0 a PyNone; nth 1 a PyNone;
              fill_none (nth 2 a PyNone) S; fill_none (nth 3 a PyNone) E]
  | CAggregation | CConvertTZ => f' = f
  end.

Lemma normalize_function_normalized (S E : pyval) (f : pfunc) :
  wf_function f ->
  (rollup_like f = true -> is_None S = false /\ is_None E = false) ->
  exists f', normalize_function S E f = inl f' /\ normalized S E f f'.
Proof.
  intros Hwf Hr. destruct_wf f Hwf; simpl in Hr;
    try (destruct (Hr eq_refl) as [HS HE]);
    unfold normalize_function, get_neg, set_neg, normalized, fill_none; simpl;
    rewrite ?HS, ?HE; simpl;
    repeat (match goal with
            | |- context [is_None ?v] =>
                match v with S => fail | E => fail | _ => destruct v end
            end; simpl);
    eexists; split; reflexivity.
Qed.

Lemma normalize_list_normalized (S E : pyval) (l : list pfunc) :
  Forall wf_function l ->
  (existsb rollup_like l = true -> is_None S = false /\ is_None E = false) ->
  snd (normalize_list S E l) = None /\
  Forall2 (normalized S E) l (fst (normalize_list S E l)).
Proof.
  intros Hwf. induction Hwf as [|f l Hf Hl IH]; simpl; intros Hex.
  - split; [reflexivity | constructor].
  - assert (Hf' : rollup_like f = true -> is_None S = false /\ is_None E = false).
    { intros H. apply Hex. rewrite H. reflexivity. }
    assert (Hl' : existsb rollup_like l = true ->
                  is_None S = false /\ is_None E = false).
    { intros H. apply Hex. rewrite H. apply orb_true_r. }
    destruct (normalize_function_normalized S E f Hf Hf') as [f' [-> Hn]].
    destruct (IH Hl') as [He Hfs].
    destruct (normalize_list S E l) as [l'' e]; simpl in *.
    split; [exact He | constructor; assumption].
Qed.

Lemma read_sensors_unfold (respond : call -> pyval) (b : QueryBuilder) (S E : pyval)
  (Hs : object_type b = "sensors") :
  let (p, e) := normalize_list S E (pipeline b) in
  let q := with_pipeline_op b p (mk_op "read" [("start", S); ("stop", E)]) in
  run (read respond [("start", S); ("end", E)]) b =
    match e with
    | None => (inl (respond (ClientRead q)), mk_world q [ClientRead q] [])
    | Some e => (inr e, mk_world q [] [])
    end.
Proof.
  unfold read, _normalize_pipeline_functions. unfold_monad. simpl.
  rewrite Hs. simpl. destruct (normalize_list S E (pipeline b)) as [p [e|]];
    reflexivity.
Qed.

(** A sensors read whose pipeline is well formed and whose bounds are given
    whenever a Rollup, MultiRollup or Find step needs them succeeds: every
    step is normalised as [normalized] describes, the operation is the
    read with [start] and [stop], and [client.read] is called once with that
    builder.  Interpolation, Aggregation and ConvertTZ steps never make it
    fail, even with [None] bounds. *)
Theorem read_sensors_normalizes (respond : call -> pyval) (b : QueryBuilder)
  (S E : pyval)
  (Hs : object_type b = "sensors") (Hwf : Forall wf_function (pipeline b))
  (Hbounds : existsb rollup_like (pipeline b) = true ->
             is_None S = false /\ is_None E = false) :
  exists p,
    Forall2 (normalized S E) (pipeline b) p /\
    let q := with_pipeline_op b p (mk_op "read" [("start", S); ("stop", E)]) in
    run (read respond [("start", S); ("end", E)]) b =
      (inl (respond (ClientRead q)), mk_world q [ClientRead q] []).
Proof.
  pose proof (read_sensors_unfold respond b S E Hs) as H.
  destruct (normalize_list_normalized S E _ Hwf Hbounds) as [He Hn].
  destruct (normalize_list S E (pipeline b)) as [p e]; simpl in *.
  subst e. exists p. split; [exact Hn | exact H].
Qed.

Lemma read_sensors_normalizes_witness :
  let b := {| object_type := "sensors"; sel_devices := None; sel_sensors := None;
              sel_rules := None;
              pipeline := [Interpolation (PyStr "zoh") (PyStr "1min") PyNone PyNone;
                           ConvertTZ (PyStr "UTC")];
              operation := None |} in
  object_type b = "sensors" /\ Forall wf_function (pipeline b) /\
  exists p, Forall2 (normalized PyNone PyNone) (pipeline b) p.
Proof.
  intros b.
  assert (H1 : object_type b = "sensors") by reflexivity.
  assert (H2 : Forall wf_function (pipeline b)) by (repeat constructor).
  assert (H3 : existsb rollup_like (pipeline b) = true ->
               is_None PyNone = false /\ is_None PyNone = false)
    by (intros H; discriminate H).
  split; [exact H1 | split; [exact H2 |]].
  destruct (read_sensors_normalizes (fun _ => PyNone) b PyNone PyNone H1 H2 H3)
    as [p [Hp _]].
  exists p. exact Hp.
Defined.

Lemma normalized_functional (S E : pyval) (f g1 g2 : pfunc) :
  normalized S E f g1 -> normalized S E f g2 -> g1 = g2.
Proof.
  unfold normalized. destruct (fclass_of f); congruence.
Qed.

Lemma Forall2_normalized_functional (S E : pyval) (l l1 l2 : list pfunc) :
  Forall2 (normalized S E) l l1 -> Forall2 (normalized S E) l l2 -> l1 = l2.
Proof.
  intros H1. revert l2. induction H1 as [|f g1 l l1 Hf H1 IH]; intros l2 H2;
    inversion H2; subst; [reflexivity |].
  f_equal; [eapply normalized_functional; eassumption | apply IH; assumption].
Qed.

(** Once normalised with given bounds, a function is well formed, keeps its
    class, and any later normalisation leaves it as it is. *)
Lemma normalized_stable (S E S' E' : pyval) (f f' : pfunc) :
  is_None S = false -> is_None E = false ->
  wf_function f -> normalized S E f f' ->
  wf_function f' /\ rollup_like f' = rollup_like f /\ normalized S' E' f' f'.
Proof.
  intros HS HE Hwf Hn. destruct_wf f Hwf; unfold normalized in Hn; simpl in Hn;
    subst f'; unfold wf_function, normalized, fill_none; simpl;
    repeat split;
    repeat match goal with
           | |- context [is_None ?v] =>
               match v with
               | S => rewrite HS | E => rewrite HE
               | _ => destruct v; simpl
               end
           end; reflexivity.
Qed.

Lemma Forall2_normalized_stable (S E S' E' : pyval) (l l' : list pfunc) :
  is_None S = false -> is_None E = false ->
  Forall wf_function l -> Forall2 (normalized S E) l l' ->
  Forall wf_function l' /\ existsb rollup_like l' = existsb rollup_like l /\
  Forall2 (normalized S' E') l' l'.
Proof.
  intros HS HE Hwf Hn. revert Hwf.
  induction Hn as [|f f' l l' Hf Hn IH]; intros Hwf; [repeat constructor |].
  inversion Hwf as [|? ? Hwf1 Hwf2]; subst.
  destruct (normalized_stable S E S' E' f f' HS HE Hwf1 Hf) as [W [R N]].
  destruct (IH Hwf2) as [W' [R' N']].
  split; [constructor; assumption |].
  split; [simpl; rewrite R, R'; reflexivity | constructor; assumption].
Qed.

(** Reusing a builder after a sensors read with given bounds: a second
    read that does not fail leaves the pipeline exactly as the first read
    normalised it, so the steps keep the first read's bounds whatever the
    second read's are. *)
Theorem read_twice_keeps_first_bounds (respond : call -> pyval)
  (b : QueryBuilder) (S E S' E' : pyval)
  (Hs : object_type b = "sensors") (Hwf : Forall wf_function (pipeline b))
  (HS : is_None S = false) (HE : is_None E = false)
  (Hbounds' : existsb rollup_like (pipeline b) = true ->
              is_None S' = false /\ is_None E' = false) :
  let w1 := snd (run (read respond [("start", S); ("end", E)]) b) in
  let w2 := snd (run (read respond [("start", S'); ("end", E')]) (qb w1)) in
  pipeline (qb w2) = pipeline (qb w1).
Proof.
  destruct (read_sensors_normalizes respond b S E Hs Hwf
              (fun _ => conj HS HE)) as [p [Hn Hrun]].
  simpl. rewrite Hrun. simpl.
  destruct (Forall2_normalized_stable S E S' E' _ _ HS HE Hwf Hn) as [W [R N]].
  set (b1 := with_pipeline_op b p (mk_op "read" [("start", S); ("stop", E)])).
  assert (Hb1 : Forall wf_function (pipeline b1)) by exact W.
  assert (Hbd : existsb rollup_like (pipeline b1) = true ->
                is_None S' = false /\ is_None E' = false).
  { simpl. rewrite R. exact Hbounds'. }
  destruct (read_sensors_normalizes respond b1 S' E' Hs Hb1 Hbd)
    as [p' [Hn' Hrun']].
  rewrite Hrun'. simpl.
  symmetry. exact (Forall2_normalized_functional S' E' p p p' N Hn').
Qed.

Lemma read_twice_keeps_first_bounds_witness :
  object_type rollup_builder = "sensors" /\
  Forall wf_function (pipeline rollup_builder) /\
  pipeline (qb (snd (run (read (fun _ => PyNone)
                              [("start", PyDateTime 7); ("end", PyDateTime 8)])
                  (qb (snd (run (read (fun _ => PyNone)
                                   [("start", PyDateTime 1); ("end", PyDateTime 9)])
                           rollup_builder))))))
  = pipeline (qb (snd (run (read (fun _ => PyNone)
                              [("start", PyDateTime 1); ("end", PyDateTime 9)])
                        rollup_builder))).
Proof.
  assert (H1 : object_type rollup_builder = "sensors") by reflexivity.
  assert (H2 : Forall wf_function (pipeline rollup_builder)) by (repeat constructor).
  split; [exact H1 | split; [exact H2 |]].
  exact (read_twice_keeps_first_bounds (fun _ => PyNone) rollup_builder
           (PyDateTime 1) (PyDateTime 9) (PyDateTime 7) (PyDateTime 8)
           H1 H2 eq_refl eq_refl (fun _ => conj eq_refl eq_refl)).
Defined.
